(** * Peptide Research E-commerce API: the request handlers of [main.py]

    A shallow embedding of the FastAPI application of [src/main.py] and of
    the schemas it declares (repeated in [src/schemas.py]), with the error
    contract of every route proved over it.

    - Python values are an inductive type [Value]; a [dict] is a
      [gmap string Value], a [float] is an IEEE value ([spec_float]).
    - A [str] is a [string]; one element of the [string] stands for one
      character, so that the slice [s[:n]] is [substring 0 n s].  The
      element 255, which no text written in the source holds, stands for
      a character that UTF-8 cannot encode (a lone surrogate).
    - An exception raised by a collaborator is a value of [Exception]; a
      handler either returns a value or raises ([Raised]).
    - The store behind the global [db] is threaded explicitly: a handler
      takes the handle ([None] when no store is configured) and gives it
      back with its outcome.
    - A request is answered in two steps: [app] runs the schema check and
      the handler and builds the answer, and [serve] encodes its body as
      JSON, answering 500 when the body cannot be encoded. *)

From Stdlib Require Import ZArith Ascii String List Bool Lia.
From Stdlib Require Import Floats.SpecFloat.
From stdpp Require Import gmap strings list fin_maps pretty.

Set Warnings "-register-all".
Local Open Scope string_scope.
Local Open Scope Z_scope.

(** ** Python values *)

(** An instance of [Exception] raised by a collaborator (the [database]
    module, the store driver, [bson]); [message] is what [str(e)] gives. *)
Record Exception := { message : string }.

(** A [bson.ObjectId], kept as the hexadecimal text [str(oid)] shows. *)
Record ObjectId := { oid_hex : string }.

Inductive Value :=
| VNone
| VBool (b : bool)
| VInt (n : Z)
| VFloat (x : spec_float)
| VStr (s : string)
| VObjectId (o : ObjectId)
| VList (l : list Value)
| VDict (d : gmap string Value).

Abbreviation Document := (gmap string Value).

(** [x is None] *)
Definition is_None (v : Value) : bool :=
  match v with VNone => true | _ => false end.

(** Truth value of a [dict]: false exactly when it has no key. *)
Definition dict_truthy (d : Document) : bool := negb (Nat.eqb (size d) 0).

(** Truth value of what a lookup gives back: [None] or a [dict]. *)
Definition doc_truthy (doc : option Document) : bool :=
  match doc with
  | None => false
  | Some d => dict_truthy d
  end.

(** Truth value of a [str] or [None], as [os.getenv] returns. *)
Definition str_truthy (s : option string) : bool :=
  match s with
  | None | Some "" => false
  | Some _ => true
  end.

(** [s[:n]] *)
Definition slice_to (n : nat) (s : string) : string := substring 0 n s.

(** *** What can be written as JSON

    The answer of a route is encoded as JSON text in UTF-8.  That fails
    for a [float] that is infinite or not a number, for an [ObjectId], and
    for a text that holds a character UTF-8 cannot encode. *)

Definition char_encodable (a : ascii) : bool :=
  negb (Ascii.eqb a "255"%char).

Definition text_encodable (s : string) : bool :=
  forallb char_encodable (list_ascii_of_string s).

Definition float_finite (x : spec_float) : bool :=
  match x with
  | S754_zero _ | S754_finite _ _ _ => true
  | S754_infinity _ | S754_nan => false
  end.

Fixpoint encodable (v : Value) : bool :=
  match v with
  | VNone | VBool _ | VInt _ => true
  | VFloat x => float_finite x
  | VStr s => text_encodable s
  | VObjectId _ => false
  | VList l => forallb encodable l
  | VDict d =>
      map_fold (fun k v' rest => text_encodable k && encodable v' && rest)
        true d
  end.

(** ** Outcomes: a state and exception monad

    [M E St A] is a computation over a mutable [St] that returns an [A] or
    raises an [E].  What was written to the state before an exception is
    raised stays written, as for a Python object mutated inside [try]. *)

Definition M (E St A : Type) : Type := St -> (E + A) * St.

Definition ret {E St A} (a : A) : M E St A := fun s => (inr a, s).

Definition raise {E St A} (e : E) : M E St A := fun s => (inl e, s).

Definition bind {E St A B} (m : M E St A) (k : A -> M E St B) : M E St B :=
  fun s =>
    match m s with
    | (inl e, s') => (inl e, s')
    | (inr a, s') => k a s'
    end.

(** [try: body / except Exception as e: handler e] *)
Definition try_except {E St A} (body : M E St A) (handler : E -> M E St A)
  : M E St A :=
  fun s =>
    match body s with
    | (inl e, s') => handler e s'
    | (inr a, s') => (inr a, s')
    end.

(** The outcome of a call that does not touch the state. *)
Definition lift {E St A} (r : E + A) : M E St A := fun s => (r, s).

Definition get {E St} : M E St St := fun s => (inr s, s).

Notation "x <- m ;; k" := (bind m (fun x => k))
  (at level 100, m at next level, right associativity).
Notation "m ;;; k" := (bind m (fun _ => k))
  (at level 100, right associativity).

(** An entry of the error list of a request-validation error: the field
    that failed and the input it was given. *)
Record ValidationError := { loc : string; input : Value }.

(** What a route handler raises: an [HTTPException] of its own, the
    request-validation error FastAPI raises before the handler runs, or an
    exception of a collaborator that it lets through. *)
Inductive Raised :=
| HTTPException (status_code : Z) (detail : string)
| RequestValidationError (errors : list ValidationError)
| Unhandled (e : Exception).

(** ** Schemas *)

(** The field [size] is written [size_]: [size] is the number of keys of a
    map here. *)
Record PeptideProduct := {
  name : string;
  code : string;
  description : option string;
  price : spec_float;
  purity : string;
  form : string;
  storage : string;
  size_ : string;
  in_stock : bool;
  research_only : bool;
}.

Record OrderItem := {
  product_id : string;
  quantity : Z;
}.

Record Order := {
  items : list OrderItem;
  customer_name : string;
  email : string;
  institution : option string;
  country : string;
  research_use_only_ack : bool;
  age_over_21_ack : bool;
  notes : option string;
}.

Definition float_zero : spec_float := S754_zero false.

(** The declared bounds of a model's fields; a field that breaks one is
    listed with the value it was given.
    [price: float = Field(..., ge=0)]. *)
Definition PeptideProduct_errors (p : PeptideProduct)
  : list ValidationError :=
  if SFleb float_zero (price p) then []
  else [{| loc := "price"; input := VFloat (price p) |}].

(** [quantity: int = Field(ge=1, default=1)] *)
Definition OrderItem_errors (i : OrderItem) : list ValidationError :=
  if 1 <=? quantity i then []
  else [{| loc := "quantity"; input := VInt (quantity i) |}].

(** [items: List[OrderItem]]: every item is checked. *)
Definition Order_errors (o : Order) : list ValidationError :=
  flat_map OrderItem_errors (items o).

(** An error as the 422 body shows it. *)
Definition error_detail (e : ValidationError) : Value :=
  VDict (<["loc" := VStr (loc e)]> (<["input" := input e]> ∅)).

(** The fields of a model as a [dict] (pydantic's [model_dump]), which is
    what the store is handed. *)
Class BaseModel (A : Type) := model_dump : A -> Document.

Definition optional_str (s : option string) : Value :=
  match s with
  | None => VNone
  | Some s => VStr s
  end.

#[export] Instance PeptideProduct_model : BaseModel PeptideProduct := fun p =>
  <["name" := VStr (name p)]>
  (<["code" := VStr (code p)]>
  (<["description" := optional_str (description p)]>
  (<["price" := VFloat (price p)]>
  (<["purity" := VStr (purity p)]>
  (<["form" := VStr (form p)]>
  (<["storage" := VStr (storage p)]>
  (<["size" := VStr (size_ p)]>
  (<["in_stock" := VBool (in_stock p)]>
  (<["research_only" := VBool (research_only p)]> ∅))))))))).

#[export] Instance OrderItem_model : BaseModel OrderItem := fun i =>
  <["product_id" := VStr (product_id i)]>
  (<["quantity" := VInt (quantity i)]> ∅).

#[export] Instance Order_model : BaseModel Order := fun o =>
  <["items" := VList (map (fun i => VDict (model_dump i)) (items o))]>
  (<["customer_name" := VStr (customer_name o)]>
  (<["email" := VStr (email o)]>
  (<["institution" := optional_str (institution o)]>
  (<["country" := VStr (country o)]>
  (<["research_use_only_ack" := VBool (research_use_only_ack o)]>
  (<["age_over_21_ack" := VBool (age_over_21_ack o)]>
  (<["notes" := optional_str (notes o)]> ∅))))))).

(** ** Collaborators

    What [main.py] imports and does not define: [bson.ObjectId], the
    built-in [str], and the [database] module with the store behind its
    [db].  [Db] is a live store handle together with the records behind it;
    an operation returns its value or the exception it raises, and
    [create_document] also returns the store as it is afterwards. *)
Class Collaborators := {
  Db : Type;
  (** [ObjectId(product_id)] *)
  ObjectId_new : string -> Exception + ObjectId;
  (** [str(v)] *)
  py_str : Value -> string;
  (** [db[collection].find_one({"_id": oid})] *)
  find_one : Db -> string -> ObjectId -> Exception + option Document;
  (** [get_documents(collection)] *)
  get_documents : Db -> string -> Exception + list Document;
  (** [create_document(collection, data)] *)
  create_document : Db -> string -> Document -> (Exception + string) * Db;
  (** [db.list_collection_names()] *)
  list_collection_names : Db -> Exception + list string;
  (** [db.name] when [hasattr(db, 'name')] *)
  db_name : Db -> option string;
}.

Section Routes.
Context {C : Collaborators}.

(** The global [db]: [None] when no store is configured. *)
Definition Handler (A : Type) : Type := M Raised (option Db) A.

(** A read of the store: its exception, if any, leaves the handler. *)
Definition query {A} (r : Exception + A) : Handler A :=
  lift (match r with
        | inl e => inl (Unhandled e)
        | inr a => inr a
        end).

(** A write to the store [d]; the store it leaves behind is the new [db]. *)
Definition update {A} (op : Db -> (Exception + A) * Db) (d : Db)
  : Handler A :=
  fun _ =>
    let '(r, d') := op d in
    (match r with
     | inl e => inl (Unhandled e)
     | inr a => inr a
     end, Some d').

Definition to_str_id (doc : Document) : Document :=
  if negb (dict_truthy doc) then doc
  else
    match doc !! "_id" with
    | Some v =>
        if negb (is_None v)
        then <["id" := VStr (py_str v)]> (delete "_id" doc)
        else doc
    | None => doc
    end.

Definition read_root : Handler Value :=
  ret (VDict {["message" := VStr "Peptide Research API running"]}).

Definition hello : Handler Value :=
  ret (VDict {["message" := VStr "Hello from the backend API!"]}).

Definition disclaimer : Handler Value :=
  ret (VDict
    (<["title" := VStr "Research Use Only"]>
    (<["content" := VStr
        ("All products are intended for laboratory research use only. "
         ++ "Not for human or veterinary use, diagnostics, or therapeutic applications. "
         ++ "By proceeding, you confirm you are a qualified researcher in compliance with applicable laws and regulations.")]>
     ∅))).

Definition list_products : Handler Value :=
  db <- get ;;
  match db with
  | None => ret (VList [])
  | Some d =>
      docs <- query (get_documents d "peptideproduct") ;;
      ret (VList (map (fun d => VDict (to_str_id d)) docs))
  end.

Definition get_product (product_id : string) : Handler Value :=
  db <- get ;;
  match db with
  | None => raise (HTTPException 404 "Product not found")
  | Some d =>
      oid <- try_except (query (ObjectId_new product_id))
               (fun _ => raise (HTTPException 400 "Invalid product id")) ;;
      doc <- query (find_one d "peptideproduct" oid) ;;
      match doc with
      | Some doc =>
          if negb (dict_truthy doc)
          then raise (HTTPException 404 "Product not found")
          else ret (VDict (to_str_id doc))
      | None => raise (HTTPException 404 "Product not found")
      end
  end.

Definition create_product (product : PeptideProduct) : Handler Value :=
  db <- get ;;
  match db with
  | None => raise (HTTPException 500 "Database not available")
  | Some d =>
      inserted_id <-
        update (fun d => create_document d "peptideproduct"
                           (model_dump product)) d ;;
      ret (VDict {["id" := VStr inserted_id]})
  end.

Definition create_order (order : Order) : Handler Value :=
  if negb (research_use_only_ack order) || negb (age_over_21_ack order)
  then raise (HTTPException 400 "Compliance acknowledgements are required")
  else
    db <- get ;;
    match db with
    | None =>
        ret (VDict (<["status" := VStr "received"]>
                   (<["persisted" := VBool false]> ∅)))
    | Some d =>
        inserted_id <-
          update (fun d => create_document d "order" (model_dump order)) d ;;
        ret (VDict (<["status" := VStr "received"]>
                   (<["persisted" := VBool true]>
                   (<["id" := VStr inserted_id]> ∅))))
    end.

(** *** The diagnostic route

    [response] is the mutable state of the body; [import_db] is the
    outcome of [from database import db as _db] and [DATABASE_URL] what
    [os.getenv("DATABASE_URL")] returns. *)

Definition setitem (k : string) (v : Value) : M Exception Document unit :=
  fun response => (inr tt, <[k := v]> response).

Definition initial_response : Document :=
  <["backend" := VStr "✅ Running"]>
  (<["database" := VStr "❌ Not Available"]>
  (<["database_url" := VNone]>
  (<["database_name" := VNone]>
  (<["connection_status" := VStr "Not Connected"]>
  (<["collections" := VList []]> ∅))))).

Definition probe (import_db : Exception + option Db)
    (DATABASE_URL : option string) : M Exception Document unit :=
  try_except
    (_db <- lift import_db ;;
     match _db with
     | Some _db =>
         setitem "database" (VStr "✅ Available") ;;;
         setitem "database_url"
           (VStr (if str_truthy DATABASE_URL then "✅ Set" else "❌ Not Set")) ;;;
         setitem "database_name"
           (VStr (match db_name _db with
                  | Some n => n
                  | None => "✅ Connected"
                  end)) ;;;
         setitem "connection_status" (VStr "Connected") ;;;
         try_except
           (collections <- lift (list_collection_names _db) ;;
            setitem "collections" (VList (map VStr (take 10 collections))) ;;;
            setitem "database" (VStr "✅ Connected & Working"))
           (fun e =>
              setitem "database"
                (VStr ("⚠️  Connected but Error: "
                       ++ slice_to 50 (message e))))
     | None => setitem "database" (VStr "⚠️  Available but not initialized")
     end)
    (fun e =>
       setitem "database" (VStr ("❌ Error: " ++ slice_to 50 (message e)))).

Definition test_database (import_db : Exception + option Db)
    (DATABASE_URL : option string) : Exception + Document :=
  fst ((probe import_db DATABASE_URL ;;; get) initial_response).

(** ** The application

    A request is a route with what it carries: the path parameter, the
    body as the model FastAPI builds from it, and for [GET /test] what
    the environment answers while the route runs. *)
Inductive Request :=
| GET_root
| GET_api_hello
| GET_api_disclaimer
| GET_api_products
| GET_api_products_id (product_id : string)
| POST_api_products (product : PeptideProduct)
| POST_api_orders (order : Order)
| GET_test (import_db : Exception + option Db) (DATABASE_URL : option string).

Record Response := { status : Z; body : Value }.

(** [@app.post(..., status_code=201)]; a [@app.get] answers 200. *)
Definition success_status (req : Request) : Z :=
  match req with
  | POST_api_products _ | POST_api_orders _ => 201
  | _ => 200
  end.

(** The body is checked against its model before the handler is called. *)
Definition body_errors (req : Request) : list ValidationError :=
  match req with
  | POST_api_products product => PeptideProduct_errors product
  | POST_api_orders order => Order_errors order
  | _ => []
  end.

Definition endpoint (req : Request) : Handler Value :=
  match req with
  | GET_root => read_root
  | GET_api_hello => hello
  | GET_api_disclaimer => disclaimer
  | GET_api_products => list_products
  | GET_api_products_id product_id => get_product product_id
  | POST_api_products product => create_product product
  | POST_api_orders order => create_order order
  | GET_test import_db DATABASE_URL =>
      response <- query (test_database import_db DATABASE_URL) ;;
      ret (VDict response)
  end.

(** The answer FastAPI builds, before its body is encoded: the returned
    value with the route's status; an [HTTPException] with its own status
    and detail; a body that fails its model with 422 and the list of its
    errors, each with the input it refused; any other exception with
    500. *)
Definition respond (status_code : Z) (r : Raised + Value) : Response :=
  match r with
  | inr v => {| status := status_code; body := v |}
  | inl (HTTPException s d) =>
      {| status := s; body := VDict {["detail" := VStr d]} |}
  | inl (RequestValidationError errors) =>
      {| status := 422;
         body := VDict {["detail" := VList (map error_detail errors)]} |}
  | inl (Unhandled _) =>
      {| status := 500; body := VStr "Internal Server Error" |}
  end.

Definition app (req : Request) (db : option Db) : Response * option Db :=
  let '(r, db') :=
    match body_errors req with
    | [] => endpoint req db
    | loc => (inl (RequestValidationError loc), db)
    end in
  (respond (success_status req) r, db').

(** The answer as it leaves the server.  The body [app] built is encoded
    as JSON; when it cannot be encoded, the encoder raises after the
    handler has run, and the request is answered 500 with the store as the
    handler left it. *)
Definition serve (req : Request) (db : option Db) : Response * option Db :=
  let '(response, db') := app req db in
  if encodable (body response) then (response, db')
  else ({| status := 500; body := VStr "Internal Server Error" |}, db').

End Routes.

(** ** A store double

    Collaborators with canned answers, as a test of the handlers would set
    them up: every read answers what the double was built with, and
    [create_document] logs what it is handed in [written] and answers
    with [insert_answer]. *)
Module Double.

Record FakeDb := {
  find_one_answer : Exception + option Document;
  get_documents_answer : Exception + list Document;
  insert_answer : Exception + string;
  collection_names_answer : Exception + list string;
  name_attr : option string;
  written : list (string * Document);
}.

Definition is_hex_digit (a : ascii) : bool :=
  let n := nat_of_ascii a in
  ((48 <=? n) && (n <=? 57) || (65 <=? n) && (n <=? 70)
   || (97 <=? n) && (n <=? 102))%nat.

Definition to_lower (a : ascii) : ascii :=
  let n := nat_of_ascii a in
  if ((65 <=? n) && (n <=? 90))%nat then ascii_of_nat (n + 32) else a.

(** [ObjectId(s)] for a text [s]: 24 hexadecimal digits, or [InvalidId]. *)
Definition parse_oid (s : string) : Exception + ObjectId :=
  if (String.length s =? 24)%nat && forallb is_hex_digit (list_ascii_of_string s)
  then inr {| oid_hex := string_of_list_ascii (map to_lower (list_ascii_of_string s)) |}
  else inl {| message := "'" ++ s ++ "' is not a valid ObjectId, it must be a 12-byte input or a 24-character hex string" |}.

(** [str] of the values an [_id] holds in these tests; numbers with a
    fraction and containers are not rendered. *)
Definition str (v : Value) : string :=
  match v with
  | VNone => "None"
  | VBool true => "True"
  | VBool false => "False"
  | VInt n => pretty n
  | VStr s => s
  | VObjectId o => oid_hex o
  | VFloat _ | VList _ | VDict _ => ""
  end.

Definition insert (d : FakeDb) (collection : string) (data : Document)
  : (Exception + string) * FakeDb :=
  (insert_answer d,
   {| find_one_answer := find_one_answer d;
      get_documents_answer := get_documents_answer d;
      insert_answer := insert_answer d;
      collection_names_answer := collection_names_answer d;
      name_attr := name_attr d;
      written := written d ++ [(collection, data)] |}).

Definition fake : Collaborators := {|
  Db := FakeDb;
  ObjectId_new := parse_oid;
  py_str := str;
  find_one d _ _ := find_one_answer d;
  get_documents d _ := get_documents_answer d;
  create_document := insert;
  list_collection_names := collection_names_answer;
  db_name := name_attr;
|}.

(** An empty store that answers every call. *)
Definition empty_db : FakeDb := {|
  find_one_answer := inr None;
  get_documents_answer := inr [];
  insert_answer := inr "65f0c0ffee0123456789abcd";
  collection_names_answer := inr [];
  name_attr := Some "peptides";
  written := [];
|}.

(** A store whose [find_one] answers a document with no key. *)
Definition db_with_empty_document : FakeDb := {|
  find_one_answer := inr (Some ∅);
  get_documents_answer := inr [];
  insert_answer := inr "65f0c0ffee0123456789abcd";
  collection_names_answer := inr [];
  name_attr := Some "peptides";
  written := [];
|}.

(** A store that is reachable no more: listing its collections raises. *)
Definition unreachable_db : FakeDb := {|
  find_one_answer := inr None;
  get_documents_answer := inr [];
  insert_answer := inr "65f0c0ffee0123456789abcd";
  collection_names_answer :=
    inl {| message := "localhost:27017: [Errno 111] Connection refused, Timeout: 30s, Topology Description: <...>" |};
  name_attr := Some "peptides";
  written := [];
|}.

(** An import failure whose text holds a lone surrogate, as the name of
    a file read with [surrogateescape] can. *)
Definition undecodable_failure : Exception :=
  {| message := "cannot open " ++ String "255"%char ".so" |}.

Definition import_failure : Exception :=
  {| message := "No module named 'database' (the store driver is missing from this deployment)" |}.

(** A stored product as the store returns it, with its [_id]. *)
Definition stored_product : Document :=
  <["_id" := VObjectId {| oid_hex := "507f1f77bcf86cd799439011" |}]>
  (<["name" := VStr "BPC-157"]>
  (<["code" := VStr "PEP-001"]> ∅)).

(** A record without [_id] but with an [id] of its own. *)
Definition foreign_record : Document :=
  <["id" := VStr "legacy-7"]> (<["name" := VStr "TB-500"]> ∅).

(** A store that holds two records and twelve collections. *)
Definition stocked_db : FakeDb := {|
  find_one_answer := inr (Some stored_product);
  get_documents_answer := inr [stored_product; foreign_record];
  insert_answer := inr "65f0c0ffee0123456789abcd";
  collection_names_answer :=
    inr ["c01"; "c02"; "c03"; "c04"; "c05"; "c06";
         "c07"; "c08"; "c09"; "c10"; "c11"; "c12"];
  name_attr := None;
  written := [];
|}.

(** A store every call to which raises. *)
Definition broken_db : FakeDb := {|
  find_one_answer := inl {| message := "connection closed" |};
  get_documents_answer := inl {| message := "connection closed" |};
  insert_answer := inl {| message := "connection closed" |};
  collection_names_answer := inl {| message := "connection closed" |};
  name_attr := Some "peptides";
  written := [];
|}.



End Double.

(** ** Sample requests *)

Definition sample_order (ruo age : bool) : Order := {|
  items := [{| product_id := "abc"; quantity := 2 |}];
  customer_name := "A";
  email := "a@b.com";
  institution := None;
  country := "US";
  research_use_only_ack := ruo;
  age_over_21_ack := age;
  notes := None;
|}.

Definition sample_product (price : spec_float) : PeptideProduct := {|
  name := "BPC-157";
  code := "PEP-001";
  description := None;
  price := price;
  purity := "≥98% (HPLC)";
  form := "Lyophilized powder";
  storage := "-20°C, desiccated";
  size_ := "5 mg vial";
  in_stock := true;
  research_only := true;
|}.

(** An order one of whose items asks for nothing. *)
Definition order_with_zero_quantity (ruo age : bool) : Order := {|
  items := [{| product_id := "abc"; quantity := 2 |};
            {| product_id := "def"; quantity := 0 |}];
  customer_name := "A";
  email := "a@b.com";
  institution := None;
  country := "US";
  research_use_only_ack := ruo;
  age_over_21_ack := age;
  notes := None;
|}.

(** [-1.0] and [49.5] as IEEE values. *)
Definition minus_one : spec_float := S754_finite true 1 0.
Definition price_49_5 : spec_float := S754_finite false 99 (-1).

(** What the JSON number [-1e999] is read as. *)
Definition minus_infinity : spec_float := S754_infinity true.

(** ** The contracts of the routes *)

(** The body FastAPI sends for an [HTTPException]. *)
Definition error_body (detail : string) : Value :=
  VDict {["detail" := VStr detail]}.

(** [body["k"]] of a response that is an object; [None] when the key is
    absent. *)
Definition field (k : string) (v : Value) : option Value :=
  match v with
  | VDict d => d !! k
  | _ => None
  end.

(** The routes declared with [@app.post]. *)
Definition is_write {C : Collaborators} (req : Request) : bool :=
  match req with
  | POST_api_products _ | POST_api_orders _ => true
  | _ => false
  end.

Section Contracts.
Context {C : Collaborators}.

(** *** Encoding *)

Lemma text_encodable_app (a b : string) :
  text_encodable (a ++ b) = text_encodable a && text_encodable b.
Proof.
  unfold text_encodable. induction a as [|c a IH]; simpl; [reflexivity |].
  change (forallb char_encodable (list_ascii_of_string (a ++ b)))
    with (text_encodable (a ++ b)) at 1.
  unfold text_encodable at 1. rewrite IH. by destruct (char_encodable c).
Qed.

Lemma encodable_dict (d : Document) :
  encodable (VDict d) = true
  <-> map_Forall (fun k v => text_encodable k = true /\ encodable v = true) d.
Proof.
  simpl.
  apply (map_fold_weak_ind
           (fun (r : bool) (m : Document) =>
              r = true
              <-> map_Forall
                    (fun k v => text_encodable k = true /\ encodable v = true)
                    m)).
  - split; [intros _; apply map_Forall_empty | reflexivity].
  - intros k v m r Hfresh IH.
    rewrite map_Forall_insert by exact Hfresh.
    rewrite !andb_true_iff, IH. tauto.
Qed.

Lemma encodable_singleton (k : string) (v : Value) :
  encodable (VDict {[k := v]}) = text_encodable k && encodable v.
Proof. simpl. rewrite map_fold_singleton. apply andb_true_r. Qed.

Lemma serve_encodable (req : Request) (db : option Db) :
  encodable (body (fst (app req db))) = true -> serve req db = app req db.
Proof.
  unfold serve. destruct (app req db) as [response db']. simpl.
  by intros ->.
Qed.

Lemma serve_unencodable (req : Request) (db : option Db) :
  encodable (body (fst (app req db))) = false ->
  serve req db =
    ({| status := 500; body := VStr "Internal Server Error" |},
     snd (app req db)).
Proof.
  unfold serve. destruct (app req db) as [response db']. simpl.
  by intros ->.
Qed.

(** An answer whose body is the detail of an [HTTPException] leaves the
    server as [app] built it, the texts of the handlers being plain. *)
Lemma serve_error_answer
    (req : Request) (db : option Db) (s : Z) (detail : string) :
  fst (app req db) = {| status := s; body := error_body detail |} ->
  text_encodable detail = true ->
  serve req db = app req db.
Proof.
  intros Hanswer Htext. apply serve_encodable. rewrite Hanswer.
  unfold error_body. cbn [body]. rewrite encodable_singleton.
  cbn [encodable]. by rewrite Htext.
Qed.

Lemma serve_store (req : Request) (db : option Db) :
  snd (serve req db) = snd (app req db).
Proof.
  unfold serve. destruct (app req db) as [response db']. simpl.
  by destruct (encodable (body response)).
Qed.

Lemma app_valid_body (req : Request) (db : option Db) :
  body_errors req = [] ->
  app req db =
    (respond (success_status req) (fst (endpoint req db)), snd (endpoint req db)).
Proof.
  intros Hok. unfold app. rewrite Hok.
  destruct (endpoint req db) as [r db']. reflexivity.
Qed.

Lemma app_invalid_body (req : Request) (db : option Db) :
  body_errors req <> [] ->
  app req db =
    ({| status := 422;
        body := VDict {["detail" :=
                          VList (map error_detail (body_errors req))]} |},
     db).
Proof.
  intros Hbad. unfold app.
  destruct (body_errors req) as [|f loc]; [congruence | reflexivity].
Qed.

Lemma create_order_refused (order : Order) (db : option Db) :
  research_use_only_ack order = false \/ age_over_21_ack order = false ->
  create_order order db =
    (inl (HTTPException 400 "Compliance acknowledgements are required"), db).
Proof.
  intros Hack. unfold create_order.
  assert (negb (research_use_only_ack order) || negb (age_over_21_ack order)
          = true) as ->.
  { destruct Hack as [-> | ->]; [reflexivity | apply orb_true_r]. }
  reflexivity.
Qed.

(** C1. An order whose research-use-only or age acknowledgement is false is
    refused with 400, whatever its items and whether or not a store is
    configured, and the store is left as it was: the handler raises before
    it looks at [db], and so does the route for every body that passes the
    [Order] schema. *)
Theorem create_order_requires_acknowledgements
    (order : Order) (db : option Db) :
  research_use_only_ack order = false \/ age_over_21_ack order = false ->
  create_order order db =
    (inl (HTTPException 400 "Compliance acknowledgements are required"), db)
  /\ (Order_errors order = [] ->
      app (POST_api_orders order) db =
        ({| status := 400;
            body := error_body "Compliance acknowledgements are required" |},
         db)).
Proof.
  intros Hack. split.
  - by apply create_order_refused.
  - intros Hok. rewrite app_valid_body by exact Hok.
    simpl. by rewrite create_order_refused.
Qed.


Lemma negative_not_ge_zero (x : spec_float) :
  SFltb x float_zero = true -> SFleb float_zero x = false.
Proof.
  unfold SFltb, SFleb, float_zero.
  destruct x as [s | s | | s m e]; try destruct s; simpl; congruence.
Qed.

(** C3, as amended. A product body whose price is negative and finite is
    answered 422 by the schema check ([price >= 0]), with the price shown
    in the error; for every negative price, the infinite one included, the
    handler is not called and the store, configured or not, is left as it
    was.  A price of minus infinity is answered 500: the error that shows
    it cannot be encoded. *)
Theorem create_product_negative_price_not_stored
    (product : PeptideProduct) (db : option Db) :
  SFltb (price product) float_zero = true ->
  snd (serve (POST_api_products product) db) = db
  /\ (price product <> S754_infinity true ->
      serve (POST_api_products product) db =
        ({| status := 422;
            body :=
              VDict {["detail" :=
                        VList [error_detail
                                 {| loc := "price";
                                    input := VFloat (price product) |}]]} |},
         db))
  /\ (price product = S754_infinity true ->
      serve (POST_api_products product) db =
        ({| status := 500; body := VStr "Internal Server Error" |}, db)).
Proof.
  intros Hneg.
  assert (app (POST_api_products product) db =
            ({| status := 422;
                body :=
                  VDict {["detail" :=
                            VList [error_detail
                                     {| loc := "price";
                                        input := VFloat (price product) |}]]} |},
             db)) as Happ.
  { unfold app. simpl. unfold PeptideProduct_errors.
    by rewrite (negative_not_ge_zero _ Hneg). }
  split; [by rewrite serve_store, Happ |]. split.
  - intros Hfinite. rewrite serve_encodable; [exact Happ |].
    rewrite Happ. simpl fst. simpl body.
    destruct (price product) as [[] | [] | | [] m e];
      try discriminate Hneg; try congruence.
    reflexivity.
  - intros Hinf. rewrite serve_unencodable; [by rewrite Happ |].
    rewrite Happ, Hinf. reflexivity.
Qed.

(** What [get_product] does on a configured store, case by case. *)
Lemma get_product_configured (product_id : string) (d : Db) :
  get_product product_id (Some d) =
    (match ObjectId_new product_id with
     | inl _ => inl (HTTPException 400 "Invalid product id")
     | inr oid =>
         match find_one d "peptideproduct" oid with
         | inl e => inl (Unhandled e)
         | inr None => inl (HTTPException 404 "Product not found")
         | inr (Some doc) =>
             if dict_truthy doc then inr (VDict (to_str_id doc))
             else inl (HTTPException 404 "Product not found")
         end
     end, Some d).
Proof.
  unfold get_product, bind, get, try_except, query, lift, raise, ret.
  destruct (ObjectId_new product_id) as [e | oid]; [reflexivity |].
  destruct (find_one d "peptideproduct" oid) as [e | [doc |]];
    try reflexivity.
  destruct (dict_truthy doc); reflexivity.
Qed.

Lemma app_get_product (product_id : string) (db : option Db) :
  app (GET_api_products_id product_id) db =
    (respond 200 (fst (get_product product_id db)),
     snd (get_product product_id db)).
Proof. by apply app_valid_body. Qed.

(** C4. On a configured store, an identifier that [ObjectId] refuses is
    answered 400, and one it accepts for which the store finds no record
    is answered 404. *)
Theorem get_product_invalid_400_missing_404 (product_id : string) (d : Db) :
  (forall e, ObjectId_new product_id = inl e ->
     app (GET_api_products_id product_id) (Some d) =
       ({| status := 400; body := error_body "Invalid product id" |}, Some d))
  /\ (forall oid, ObjectId_new product_id = inr oid ->
        find_one d "peptideproduct" oid = inr None ->
        app (GET_api_products_id product_id) (Some d) =
          ({| status := 404; body := error_body "Product not found" |},
           Some d)).
Proof.
  split.
  - intros e Hbad. rewrite app_get_product, get_product_configured, Hbad.
    reflexivity.
  - intros oid Hoid Hnone.
    rewrite app_get_product, get_product_configured, Hoid, Hnone.
    reflexivity.
Qed.

(** C5, as amended. On a configured store, an identifier that [ObjectId]
    refuses makes the lookup fail with 400 "Invalid product id", not with
    NotFound; the lookup fails with NotFound (404) when the identifier is
    accepted and no matching record exists. *)
Theorem get_product_failure_kinds (product_id : string) (d : Db) :
  (forall e, ObjectId_new product_id = inl e ->
     fst (get_product product_id (Some d)) =
       inl (HTTPException 400 "Invalid product id"))
  /\ (forall oid, ObjectId_new product_id = inr oid ->
        find_one d "peptideproduct" oid = inr None ->
        fst (get_product product_id (Some d)) =
          inl (HTTPException 404 "Product not found")).
Proof.
  rewrite get_product_configured. split.
  - intros e ->. reflexivity.
  - intros oid -> ->. reflexivity.
Qed.

(** C6. With no store configured every lookup is answered 404, for every
    identifier text and whatever [ObjectId] would say of it: [db] is looked
    at first. *)
Theorem get_product_without_store (product_id : string) :
  get_product product_id None =
    (inl (HTTPException 404 "Product not found"), None)
  /\ app (GET_api_products_id product_id) None =
       ({| status := 404; body := error_body "Product not found" |}, None).
Proof. split; reflexivity. Qed.

(** C7. With no store configured the product list is the empty array,
    answered 200. *)
Theorem list_products_without_store :
  list_products None = (inr (VList []), None)
  /\ app GET_api_products None = ({| status := 200; body := VList [] |}, None).
Proof. split; reflexivity. Qed.

Lemma slice_to_length (n : nat) (s : string) :
  (String.length (slice_to n s) <= n)%nat.
Proof.
  unfold slice_to. revert s.
  induction n as [|n IH]; intros [|c s]; simpl; try lia.
  specialize (IH s). lia.
Qed.

Lemma slice_to_prefix (n : nat) (s : string) :
  exists rest, s = slice_to n s ++ rest.
Proof.
  unfold slice_to. revert s.
  induction n as [|n IH]; intros [|c s]; simpl.
  - by exists "".
  - by exists (String c s).
  - by exists "".
  - destruct (IH s) as [rest Hrest]. exists rest.
    change (String c s = String c (substring 0 n s ++ rest)).
    by rewrite <- Hrest.
Qed.

(** The diagnostic body returns in every case. *)
Lemma test_database_returns
    (import_db : Exception + option Db) (DATABASE_URL : option string) :
  exists response, test_database import_db DATABASE_URL = inr response.
Proof.
  unfold test_database, probe, bind, try_except, lift, setitem, get.
  destruct import_db as [e | [d |]]; simpl; eauto.
  destruct (list_collection_names d) as [e | names]; simpl; eauto.
Qed.

Lemma app_test_database
    (import_db : Exception + option Db) (DATABASE_URL : option string)
    (db : option Db) (response : Document) :
  test_database import_db DATABASE_URL = inr response ->
  app (GET_test import_db DATABASE_URL) db =
    ({| status := 200; body := VDict response |}, db).
Proof.
  intros Hret. unfold app. simpl.
  unfold bind, query, lift, ret. rewrite Hret. reflexivity.
Qed.

(** C8. With no store configured, creating a product fails with 500
    "Database not available"; and a request answered 500 on an unconfigured
    store can only be a product creation: listing products and looking one
    up, like every other route, answer something else. *)
Theorem store_unavailable_only_on_create_product :
  (forall product,
     create_product product None =
       (inl (HTTPException 500 "Database not available"), None))
  /\ (forall product, PeptideProduct_errors product = [] ->
        app (POST_api_products product) None =
          ({| status := 500; body := error_body "Database not available" |},
           None))
  /\ status (fst (app GET_api_products None)) = 200
  /\ (forall product_id,
        status (fst (app (GET_api_products_id product_id) None)) = 404)
  /\ (forall req, status (fst (app req None)) = 500 ->
        exists product, req = POST_api_products product).
Proof.
  split; [reflexivity |]. split.
  { intros product Hok. rewrite app_valid_body by exact Hok. reflexivity. }
  split; [reflexivity |]. split; [reflexivity |].
  intros [ | | | | product_id | product | order | import_db url] H500;
    try discriminate H500; [by eexists | | ].
  - exfalso. revert H500. unfold app. simpl.
    destruct (Order_errors order) as [|f loc]; [| discriminate].
    unfold create_order.
    destruct (negb (research_use_only_ack order)
              || negb (age_over_21_ack order)); discriminate.
  - exfalso. destruct (test_database_returns import_db url) as [r Hr].
    rewrite (app_test_database _ _ _ _ Hr) in H500. discriminate.
Qed.

(** C9, as amended. The handler of the diagnostic route never raises:
    whatever the import of the store handle and the listing of its
    collections do, it returns the diagnostic object, and an exception of
    the import or of the listing ends up in its [database] entry, cut to
    its first 50 characters at most.  The request is answered 200 with
    that object whenever the object can be encoded, which it always can
    when the handle is [None], and when the import fails with a text whose
    first 50 characters can be encoded; it is answered 500 when the object
    cannot be encoded. *)
Theorem test_database_handler_never_raises
    (import_db : Exception + option Db) (DATABASE_URL : option string)
    (db : option Db) :
  exists response,
    test_database import_db DATABASE_URL = inr response
    /\ (encodable (VDict response) = true ->
        serve (GET_test import_db DATABASE_URL) db =
          ({| status := 200; body := VDict response |}, db))
    /\ (encodable (VDict response) = false ->
        serve (GET_test import_db DATABASE_URL) db =
          ({| status := 500; body := VStr "Internal Server Error" |}, db))
    /\ (forall e, import_db = inl e ->
          response !! "database" =
            Some (VStr ("❌ Error: " ++ slice_to 50 (message e)))
          /\ (text_encodable (slice_to 50 (message e)) = true ->
              encodable (VDict response) = true))
    /\ (import_db = inr None -> encodable (VDict response) = true)
    /\ (forall d e, import_db = inr (Some d) ->
          list_collection_names d = inl e ->
          response !! "database" =
            Some (VStr ("⚠️  Connected but Error: "
                        ++ slice_to 50 (message e))))
    /\ (forall e : Exception,
          (String.length (slice_to 50 (message e)) <= 50)%nat
          /\ exists rest, message e = slice_to 50 (message e) ++ rest).
Proof.
  destruct (test_database_returns import_db DATABASE_URL) as [r Hr].
  pose proof (app_test_database _ _ db _ Hr) as Happ.
  exists r. split; [exact Hr |].
  split; [| split; [| split; [| split; [| split]]]].
  - intros Henc. rewrite serve_encodable; [exact Happ |].
    by rewrite Happ.
  - intros Henc. rewrite serve_unencodable; [by rewrite Happ |].
    by rewrite Happ.
  - intros e ->. injection Hr as <-. split; [reflexivity |].
    intros Htext. apply encodable_dict, map_Forall_insert_2.
    + split; [reflexivity |]. simpl.
      rewrite text_encodable_app, Htext. reflexivity.
    + by apply encodable_dict.
  - intros ->. injection Hr as <-. reflexivity.
  - intros d e -> Hlist. revert Hr.
    unfold test_database, probe, bind, try_except, lift, setitem, get.
    simpl. rewrite Hlist. simpl. intros [= <-]. reflexivity.
  - intros e. split; [apply slice_to_length | apply slice_to_prefix].
Qed.

(** C10. A lookup with an accepted identifier is answered 404 when the
    store finds nothing and also when what it finds is falsy, such as a
    document with no key: the handler tests [not doc]. *)
Theorem get_product_falsy_document_404
    (product_id : string) (d : Db) (oid : ObjectId)
    (found : option Document) :
  ObjectId_new product_id = inr oid ->
  find_one d "peptideproduct" oid = inr found ->
  doc_truthy found = false ->
  get_product product_id (Some d) =
    (inl (HTTPException 404 "Product not found"), Some d)
  /\ app (GET_api_products_id product_id) (Some d) =
       ({| status := 404; body := error_body "Product not found" |}, Some d).
Proof.
  intros Hoid Hfound Hfalsy.
  assert (get_product product_id (Some d) =
            (inl (HTTPException 404 "Product not found"), Some d)) as Hget.
  { rewrite get_product_configured, Hoid, Hfound.
    destruct found as [doc |]; [| reflexivity].
    simpl in Hfalsy. rewrite Hfalsy. reflexivity. }
  split; [exact Hget |].
  rewrite app_get_product, Hget. reflexivity.
Qed.

End Contracts.

(** ** The contracts on concrete requests *)

Lemma create_order_requires_acknowledgements_witness :
  age_over_21_ack (sample_order true false) = false
  /\ Order_errors (sample_order true false) = []
  /\ app (C := Double.fake) (POST_api_orders (sample_order true false))
       (Some Double.empty_db) =
       ({| status := 400;
           body := error_body "Compliance acknowledgements are required" |},
        Some Double.empty_db).
Proof.
  split; [reflexivity |]. split; [reflexivity |].
  apply (create_order_requires_acknowledgements (C := Double.fake)
           (sample_order true false) (Some Double.empty_db)).
  - right. reflexivity.
  - reflexivity.
Defined.


Lemma create_product_negative_price_not_stored_witness :
  SFltb (price (sample_product minus_one)) float_zero = true
  /\ serve (C := Double.fake) (POST_api_products (sample_product minus_one))
       (Some Double.empty_db) =
       ({| status := 422;
           body :=
             VDict {["detail" :=
                       VList [error_detail
                                {| loc := "price";
                                   input := VFloat minus_one |}]]} |},
        Some Double.empty_db).
Proof.
  split; [reflexivity |].
  apply (create_product_negative_price_not_stored (C := Double.fake)
           (sample_product minus_one) (Some Double.empty_db) eq_refl).
  discriminate.
Defined.

(** C3 as it is written fails: the price minus infinity is negative, and
    the request is answered 500, not 422. *)
Lemma create_product_minus_infinity_is_500 :
  SFltb (price (sample_product minus_infinity)) float_zero = true
  /\ fst (serve (C := Double.fake)
            (POST_api_products (sample_product minus_infinity))
            (Some Double.empty_db)) =
       {| status := 500; body := VStr "Internal Server Error" |}
  /\ status (fst (serve (C := Double.fake)
                    (POST_api_products (sample_product minus_infinity))
                    (Some Double.empty_db))) <> 422.
Proof.
  split; [reflexivity |]. split; [reflexivity |].
  vm_compute. discriminate.
Qed.

Lemma get_product_invalid_400_missing_404_witness :
  app (C := Double.fake) (GET_api_products_id "not-an-id")
    (Some Double.empty_db) =
    ({| status := 400; body := error_body "Invalid product id" |},
     Some Double.empty_db)
  /\ app (C := Double.fake) (GET_api_products_id "507f1f77bcf86cd799439011")
       (Some Double.empty_db) =
       ({| status := 404; body := error_body "Product not found" |},
        Some Double.empty_db).
Proof.
  split.
  - eapply (proj1 (get_product_invalid_400_missing_404 (C := Double.fake)
                     "not-an-id" Double.empty_db)).
    reflexivity.
  - eapply (proj2 (get_product_invalid_400_missing_404 (C := Double.fake)
                     "507f1f77bcf86cd799439011" Double.empty_db));
      reflexivity.
Defined.

(** C5 as it is written fails: on a configured store the malformed
    identifier [not-an-id] is answered 400 "Invalid product id", which is
    not NotFound. *)
Lemma get_product_invalid_id_is_not_NotFound :
  (exists e, ObjectId_new (Collaborators := Double.fake) "not-an-id" = inl e)
  /\ fst (get_product (C := Double.fake) "not-an-id" (Some Double.empty_db)) =
       inl (HTTPException 400 "Invalid product id")
  /\ status (fst (app (C := Double.fake) (GET_api_products_id "not-an-id")
                    (Some Double.empty_db))) <> 404.
Proof.
  split; [eexists; reflexivity |]. split; [reflexivity |].
  vm_compute. discriminate.
Qed.

Lemma get_product_failure_kinds_witness :
  fst (get_product (C := Double.fake) "not-an-id" (Some Double.empty_db)) =
    inl (HTTPException 400 "Invalid product id")
  /\ fst (get_product (C := Double.fake) "507f1f77bcf86cd799439011"
            (Some Double.empty_db)) =
       inl (HTTPException 404 "Product not found").
Proof.
  split.
  - eapply (proj1 (get_product_failure_kinds (C := Double.fake)
                     "not-an-id" Double.empty_db)).
    reflexivity.
  - eapply (proj2 (get_product_failure_kinds (C := Double.fake)
                     "507f1f77bcf86cd799439011" Double.empty_db));
      reflexivity.
Defined.

Lemma store_unavailable_only_on_create_product_witness :
  PeptideProduct_errors (sample_product price_49_5) = []
  /\ app (C := Double.fake) (POST_api_products (sample_product price_49_5))
       None =
       ({| status := 500; body := error_body "Database not available" |},
        None)
  /\ exists product,
       POST_api_products (sample_product price_49_5) =
         POST_api_products (C := Double.fake) product.
Proof.
  destruct (store_unavailable_only_on_create_product (C := Double.fake))
    as (_ & Hcreate & _ & _ & Honly).
  split; [reflexivity |]. split.
  - apply Hcreate. reflexivity.
  - apply Honly. reflexivity.
Defined.

Lemma test_database_handler_never_raises_witness :
  exists response,
    test_database (C := Double.fake) (inl Double.import_failure) None =
      inr response
    /\ response !! "database" =
         Some (VStr "❌ Error: No module named 'database' (the store driver is mi")
    /\ serve (C := Double.fake) (GET_test (inl Double.import_failure) None)
         None =
         ({| status := 200; body := VDict response |}, None).
Proof.
  destruct (test_database_handler_never_raises (C := Double.fake)
              (inl Double.import_failure) None None)
    as (response & Hret & H200 & _ & Himport & _).
  destruct (Himport Double.import_failure eq_refl) as [Hshown Hencodable].
  exists response. split; [exact Hret |]. split.
  - rewrite Hshown. reflexivity.
  - apply H200, Hencodable. reflexivity.
Defined.

(** C9 as it is written fails: when the import raises with a text that
    holds a lone surrogate, the handler returns its object, the object
    cannot be encoded, and the request is answered 500, not 200. *)
Lemma test_database_undecodable_text_is_500 :
  (exists response,
     test_database (C := Double.fake) (inl Double.undecodable_failure) None =
       inr response)
  /\ fst (serve (C := Double.fake)
            (GET_test (inl Double.undecodable_failure) None) None) =
       {| status := 500; body := VStr "Internal Server Error" |}
  /\ status (fst (serve (C := Double.fake)
                    (GET_test (inl Double.undecodable_failure) None)
                    None)) <> 200.
Proof.
  split; [eexists; reflexivity |]. split; [reflexivity |].
  vm_compute. discriminate.
Qed.

Lemma get_product_falsy_document_404_witness :
  find_one (Collaborators := Double.fake) Double.db_with_empty_document
    "peptideproduct"
    {| oid_hex := "507f1f77bcf86cd799439011" |} = inr (Some ∅)
  /\ app (C := Double.fake) (GET_api_products_id "507f1f77bcf86cd799439011")
       (Some Double.db_with_empty_document) =
       ({| status := 404; body := error_body "Product not found" |},
        Some Double.db_with_empty_document).
Proof.
  split; [reflexivity |].
  eapply (proj2 (get_product_falsy_document_404 (C := Double.fake)
                   "507f1f77bcf86cd799439011" Double.db_with_empty_document
                   _ (Some ∅) eq_refl eq_refl eq_refl)).
Defined.

(** ** Further behaviour of the handlers *)

Section Behaviour.
Context {C : Collaborators}.

Lemma dict_truthy_lookup (doc : Document) (k : string) (v : Value) :
  doc !! k = Some v -> dict_truthy doc = true.
Proof.
  intros Hk. unfold dict_truthy.
  destruct (size doc) as [|n] eqn:Hsize; [| reflexivity].
  apply map_size_empty_inv in Hsize. subst doc.
  by rewrite lookup_empty in Hk.
Qed.

(** [to_str_id] by the cases of its [_id]. *)
Lemma to_str_id_with_id (doc : Document) (v : Value) :
  doc !! "_id" = Some v -> is_None v = false ->
  to_str_id doc = <["id" := VStr (py_str v)]> (delete "_id" doc).
Proof.
  intros Hid Hv. unfold to_str_id.
  by rewrite (dict_truthy_lookup _ _ _ Hid), Hid, Hv.
Qed.

Lemma to_str_id_without_id (doc : Document) :
  doc !! "_id" = None \/ doc !! "_id" = Some VNone -> to_str_id doc = doc.
Proof.
  intros Hid. unfold to_str_id.
  destruct (dict_truthy doc); [simpl | reflexivity].
  by destruct Hid as [-> | ->].
Qed.

Lemma to_str_id_lookup_id (doc : Document) :
  to_str_id doc !! "_id" = None \/ to_str_id doc !! "_id" = Some VNone.
Proof.
  destruct (doc !! "_id") as [v |] eqn:Hid.
  - destruct v; try (left; erewrite to_str_id_with_id by eauto;
                     by rewrite lookup_insert_ne, lookup_delete_eq).
    right. rewrite to_str_id_without_id by auto. exact Hid.
  - left. rewrite to_str_id_without_id by auto. exact Hid.
Qed.

(** X1. For a document whose [_id] is not [None], [to_str_id] removes
    [_id], sets [id] to [str] of it (replacing an [id] the document had),
    and leaves every other key as it was. *)
Theorem to_str_id_moves_id (doc : Document) (v : Value) :
  doc !! "_id" = Some v ->
  is_None v = false ->
  to_str_id doc !! "_id" = None
  /\ to_str_id doc !! "id" = Some (VStr (py_str v))
  /\ forall k, k <> "_id" -> k <> "id" -> to_str_id doc !! k = doc !! k.
Proof.
  intros Hid Hv. rewrite (to_str_id_with_id _ _ Hid Hv). repeat split.
  - by rewrite lookup_insert_ne, lookup_delete_eq.
  - by rewrite lookup_insert_eq.
  - intros k Hk1 Hk2. by rewrite lookup_insert_ne, lookup_delete_ne.
Qed.

(** X2. [to_str_id] gives the document back unchanged exactly when it has
    no [_id] or its [_id] is [None]; a document with no key is such a
    one. *)
Theorem to_str_id_unchanged_iff (doc : Document) :
  to_str_id doc = doc
  <-> (doc !! "_id" = None \/ doc !! "_id" = Some VNone).
Proof.
  split; [| apply to_str_id_without_id].
  intros Hsame. destruct (to_str_id_lookup_id doc) as [H | H];
    rewrite Hsame in H; auto.
Qed.

(** X3. [to_str_id] is idempotent, and its result has a key exactly when
    the document has one. *)
Theorem to_str_id_idempotent (doc : Document) :
  to_str_id (to_str_id doc) = to_str_id doc
  /\ dict_truthy (to_str_id doc) = dict_truthy doc.
Proof.
  split.
  - apply to_str_id_without_id, to_str_id_lookup_id.
  - destruct (doc !! "_id") as [v |] eqn:Hid.
    + destruct (is_None v) eqn:Hv.
      * destruct v; try discriminate. by rewrite to_str_id_without_id by auto.
      * rewrite (to_str_id_with_id _ _ Hid Hv).
        rewrite (dict_truthy_lookup _ _ _ Hid).
        eapply dict_truthy_lookup, lookup_insert_eq.
    + by rewrite to_str_id_without_id by auto.
Qed.

(** What the routes that reach the store do on a configured one. *)
Lemma list_products_configured (d : Db) :
  list_products (Some d) =
    (match get_documents d "peptideproduct" with
     | inl e => inl (Unhandled e)
     | inr docs => inr (VList (map (fun doc => VDict (to_str_id doc)) docs))
     end, Some d).
Proof.
  unfold list_products, bind, get, query, lift, ret.
  destruct (get_documents d "peptideproduct"); reflexivity.
Qed.

Lemma create_product_configured (product : PeptideProduct) (d : Db) :
  create_product product (Some d) =
    (match fst (create_document d "peptideproduct" (model_dump product)) with
     | inl e => inl (Unhandled e)
     | inr inserted_id => inr (VDict {["id" := VStr inserted_id]})
     end,
     Some (snd (create_document d "peptideproduct" (model_dump product)))).
Proof.
  unfold create_product, bind, get, update, ret.
  destruct (create_document d "peptideproduct" (model_dump product))
    as [[e | inserted_id] d']; reflexivity.
Qed.

Lemma create_order_configured (order : Order) (d : Db) :
  research_use_only_ack order = true ->
  age_over_21_ack order = true ->
  create_order order (Some d) =
    (match fst (create_document d "order" (model_dump order)) with
     | inl e => inl (Unhandled e)
     | inr inserted_id =>
         inr (VDict (<["status" := VStr "received"]>
                    (<["persisted" := VBool true]>
                    (<["id" := VStr inserted_id]> ∅))))
     end,
     Some (snd (create_document d "order" (model_dump order)))).
Proof.
  intros Hruo Hage. unfold create_order. rewrite Hruo, Hage. simpl.
  unfold bind, get, update, ret.
  destruct (create_document d "order" (model_dump order))
    as [[e | inserted_id] d']; reflexivity.
Qed.

Lemma serve_if (req : Request) (db : option Db) :
  serve req db =
    (if encodable (body (fst (app req db))) then fst (app req db)
     else {| status := 500; body := VStr "Internal Server Error" |},
     snd (app req db)).
Proof.
  unfold serve. destruct (app req db) as [response db']. simpl.
  by destruct (encodable (body response)).
Qed.



(** X6. The store is left as it was by every [GET] route, by every body
    that fails its schema, and by every request when no store is
    configured: only a [POST] whose body passes the schema, on a configured
    store, can change it. *)
Theorem store_changes_only_on_accepted_writes
    (req : Request) (db : option Db) :
  is_write req = false \/ body_errors req <> [] \/ db = None ->
  snd (app req db) = db.
Proof.
  intros Hcase.
  destruct (body_errors req) as [|f loc] eqn:Herr;
    [| by rewrite app_invalid_body by (rewrite Herr; discriminate)].
  rewrite app_valid_body by exact Herr. simpl.
  destruct Hcase as [Hread | [Hbad | ->]]; [| congruence |].
  - destruct req as [ | | | | product_id | product | order | import_db url];
      try discriminate Hread; try reflexivity.
    + destruct db as [d |]; [| reflexivity].
      simpl. by rewrite list_products_configured.
    + destruct db as [d |]; [| reflexivity].
      simpl. by rewrite get_product_configured.
    + simpl. unfold bind, query, lift, ret.
      by destruct (test_database import_db url).
  - destruct req as [ | | | | product_id | product | order | import_db url];
      try reflexivity.
    + simpl. unfold create_order.
      by destruct (negb (research_use_only_ack order)
                   || negb (age_over_21_ack order)).
    + simpl. unfold bind, query, lift, ret.
      by destruct (test_database import_db url).
Qed.

(** X7. A product whose body passes the schema is handed to the store
    once, as the fields of the model, in the collection [peptideproduct];
    the answer is 201 with the identifier the store returns, or 500 when
    the store raises, and the store is as that one call leaves it. *)
Theorem create_product_stores_once (product : PeptideProduct) (d : Db) :
  PeptideProduct_errors product = [] ->
  app (POST_api_products product) (Some d) =
    (match fst (create_document d "peptideproduct" (model_dump product)) with
     | inr inserted_id =>
         {| status := 201; body := VDict {["id" := VStr inserted_id]} |}
     | inl _ => {| status := 500; body := VStr "Internal Server Error" |}
     end,
     Some (snd (create_document d "peptideproduct" (model_dump product)))).
Proof.
  intros Hok. rewrite app_valid_body by exact Hok. simpl.
  rewrite create_product_configured. simpl.
  by destruct (fst (create_document d "peptideproduct" (model_dump product))).
Qed.

(** X8. An order answered 201 had both acknowledgements and passed the
    schema.  Its body says [status: "received"]; with no store it says
    [persisted: false] and has no [id]; with a store it says
    [persisted: true] and its [id] is the identifier the one call of
    [create_document] on the collection [order] returned. *)
Theorem create_order_accepted_only_with_acknowledgements
    (order : Order) (db : option Db) (resp : Response) (db' : option Db) :
  app (POST_api_orders order) db = (resp, db') ->
  status resp = 201 ->
  research_use_only_ack order = true
  /\ age_over_21_ack order = true
  /\ Order_errors order = []
  /\ field "status" (body resp) = Some (VStr "received")
  /\ match db with
     | None =>
         field "persisted" (body resp) = Some (VBool false)
         /\ field "id" (body resp) = None
         /\ db' = None
     | Some d =>
         exists inserted_id,
           fst (create_document d "order" (model_dump order))
             = inr inserted_id
           /\ db' = Some (snd (create_document d "order" (model_dump order)))
           /\ field "persisted" (body resp) = Some (VBool true)
           /\ field "id" (body resp) = Some (VStr inserted_id)
     end.
Proof.
  intros Happ H201.
  destruct (Order_errors order) as [|f loc] eqn:Herr.
  2:{ rewrite app_invalid_body in Happ by (simpl; rewrite Herr; discriminate).
      injection Happ as <- _. discriminate H201. }
  rewrite app_valid_body in Happ by exact Herr. simpl in Happ.
  destruct (research_use_only_ack order) eqn:Hruo.
  2:{ rewrite create_order_refused in Happ by auto.
      injection Happ as <- _. discriminate H201. }
  destruct (age_over_21_ack order) eqn:Hage.
  2:{ rewrite create_order_refused in Happ by auto.
      injection Happ as <- _. discriminate H201. }
  do 3 (split; [reflexivity |]).
  destruct db as [d |].
  - rewrite create_order_configured in Happ by assumption. simpl in Happ.
    destruct (fst (create_document d "order" (model_dump order)))
      as [e | inserted_id] eqn:Hcreate.
    + injection Happ as <- _. discriminate H201.
    + injection Happ as <- <-. split; [reflexivity |].
      exists inserted_id. repeat split.
  - unfold create_order in Happ. rewrite Hruo, Hage in Happ.
    injection Happ as <- <-. repeat split.
Qed.

Lemma Order_errors_bad_iff (order : Order) :
  Order_errors order <> []
  <-> Exists (fun item => quantity item < 1) (items order).
Proof.
  unfold Order_errors.
  induction (items order) as [|item rest IH]; simpl.
  - split; [congruence | inversion 1].
  - unfold OrderItem_errors at 1.
    destruct (Z.leb_spec 1 (quantity item)) as [Hge | Hlt]; simpl.
    + rewrite IH. split; [by constructor 2 | inversion 1; [lia | done]].
    + split; [by constructor 1 | discriminate].
Qed.

Lemma create_order_status (order : Order) (db : option Db) :
  status (respond 201 (fst (create_order order db))) <> 422.
Proof.
  unfold create_order.
  destruct (negb (research_use_only_ack order)
            || negb (age_over_21_ack order)); [discriminate |].
  destruct db as [d |]; [| discriminate].
  unfold bind, get, update, ret.
  destruct (create_document d "order" (model_dump order))
    as [[e | inserted_id] d']; discriminate.
Qed.

(** X9. An order is answered 422 exactly when one of its items has a
    quantity below 1, whatever its acknowledgements say: the schema is
    checked before the handler, and then the store is left as it was.  An
    order with no items is never answered 422. *)
Theorem create_order_422_iff_bad_quantity (order : Order) (db : option Db) :
  (status (fst (app (POST_api_orders order) db)) = 422
   <-> Exists (fun item => quantity item < 1) (items order))
  /\ (Exists (fun item => quantity item < 1) (items order) ->
      snd (app (POST_api_orders order) db) = db)
  /\ (items order = [] ->
      status (fst (app (POST_api_orders order) db)) <> 422).
Proof.
  pose proof (Order_errors_bad_iff order) as Hbad.
  assert (Order_errors order = [] ->
          status (fst (app (POST_api_orders order) db)) <> 422) as Hok.
  { intros Hnil. rewrite app_valid_body by exact Hnil. simpl.
    apply create_order_status. }
  split; [split |].
  - intros H422. apply Hbad. intros Hnil. by apply Hok.
  - intros Hex. by rewrite app_invalid_body by (by apply Hbad).
  - split.
    + intros Hex. by rewrite app_invalid_body by (by apply Hbad).
    + intros Hempty. apply Hok.
      unfold Order_errors. by rewrite Hempty.
Qed.

(** The diagnostic body, by the outcome of the import and of the listing. *)
Lemma test_database_import_failed (e : Exception) (url : option string) :
  test_database (inl e) url =
    inr (<["database" := VStr ("❌ Error: " ++ slice_to 50 (message e))]>
           initial_response).
Proof. reflexivity. Qed.

Lemma test_database_not_initialized (url : option string) :
  test_database (inr None) url =
    inr (<["database" := VStr "⚠️  Available but not initialized"]>
           initial_response).
Proof. reflexivity. Qed.

Lemma test_database_listing_failed
    (d : Db) (e : Exception) (url : option string) :
  list_collection_names d = inl e ->
  test_database (inr (Some d)) url =
    inr (<["database" := VStr ("⚠️  Connected but Error: "
                                ++ slice_to 50 (message e))]>
        (<["connection_status" := VStr "Connected"]>
        (<["database_name" := VStr (match db_name d with
                                    | Some n => n
                                    | None => "✅ Connected"
                                    end)]>
        (<["database_url" := VStr (if str_truthy url then "✅ Set"
                                   else "❌ Not Set")]>
        (<["database" := VStr "✅ Available"]> initial_response))))).
Proof.
  intros Hlist.
  unfold test_database, probe, bind, try_except, lift, setitem, get.
  simpl. rewrite Hlist. reflexivity.
Qed.

Lemma test_database_listed
    (d : Db) (names : list string) (url : option string) :
  list_collection_names d = inr names ->
  test_database (inr (Some d)) url =
    inr (<["database" := VStr "✅ Connected & Working"]>
        (<["collections" := VList (map VStr (take 10 names))]>
        (<["connection_status" := VStr "Connected"]>
        (<["database_name" := VStr (match db_name d with
                                    | Some n => n
                                    | None => "✅ Connected"
                                    end)]>
        (<["database_url" := VStr (if str_truthy url then "✅ Set"
                                   else "❌ Not Set")]>
        (<["database" := VStr "✅ Available"]> initial_response)))))).
Proof.
  intros Hlist.
  unfold test_database, probe, bind, try_except, lift, setitem, get.
  simpl. rewrite Hlist. reflexivity.
Qed.

(** X10. When the store handle exists and its collections can be listed,
    the diagnostic says "Connected & Working" and reports the first ten
    collection names, in the store's order: never more than ten, and all
    of them when there are ten or fewer. *)
Theorem test_database_reports_ten_collections
    (d : Db) (names : list string) (url : option string) :
  list_collection_names d = inr names ->
  exists response,
    test_database (inr (Some d)) url = inr response
    /\ response !! "database" = Some (VStr "✅ Connected & Working")
    /\ response !! "connection_status" = Some (VStr "Connected")
    /\ response !! "collections" = Some (VList (map VStr (take 10 names)))
    /\ (length (take 10 names) <= 10)%nat
    /\ ((length names <= 10)%nat -> take 10 names = names).
Proof.
  intros Hlist. eexists. split; [by apply test_database_listed |].
  repeat split.
  - rewrite length_take. lia.
  - apply take_ge.
Qed.

(** X11. When the import of the store handle raises, or gives [None], only
    the [database] entry of the diagnostic differs from its initial value:
    the status stays "Not Connected", the collections stay empty, and the
    URL and name stay [None]. *)
Theorem test_database_without_handle_keeps_defaults
    (import_db : Exception + option Db) (url : option string)
    (response : Document) :
  (forall d, import_db <> inr (Some d)) ->
  test_database import_db url = inr response ->
  (forall k, k <> "database" -> response !! k = initial_response !! k)
  /\ response !! "connection_status" = Some (VStr "Not Connected")
  /\ response !! "collections" = Some (VList [])
  /\ response !! "database_url" = Some VNone
  /\ response !! "database_name" = Some VNone
  /\ (import_db = inr None ->
      response !! "database" =
        Some (VStr "⚠️  Available but not initialized")).
Proof.
  intros Hnone Hret.
  destruct import_db as [e | [d |]]; [| by destruct (Hnone d) |].
  - rewrite test_database_import_failed in Hret. injection Hret as <-.
    split; [intros k Hk; by rewrite lookup_insert_ne |].
    repeat split. discriminate.
  - rewrite test_database_not_initialized in Hret. injection Hret as <-.
    split; [intros k Hk; by rewrite lookup_insert_ne |].
    repeat split.
Qed.

(** X12. When the handle exists but listing its collections raises, what
    the body wrote before stays: the status is "Connected", the URL and
    name entries are filled in, and the collections stay empty. *)
Theorem test_database_listing_failure_keeps_progress
    (d : Db) (e : Exception) (url : option string) :
  list_collection_names d = inl e ->
  exists response,
    test_database (inr (Some d)) url = inr response
    /\ response !! "connection_status" = Some (VStr "Connected")
    /\ response !! "collections" = Some (VList [])
    /\ response !! "database_name" =
         Some (VStr (match db_name d with
                     | Some n => n
                     | None => "✅ Connected"
                     end))
    /\ response !! "database_url" =
         Some (VStr (if str_truthy url then "✅ Set" else "❌ Not Set")).
Proof.
  intros Hlist. eexists.
  split; [by apply test_database_listing_failed |].
  repeat split.
Qed.

Lemma dom_initial_response :
  dom initial_response =
    ({["backend"; "database"; "database_url"; "database_name";
       "connection_status"; "collections"]} : gset string).
Proof.
  unfold initial_response. rewrite !dom_insert_L, dom_empty_L. set_solver.
Qed.

(** X13. Whatever the import and the listing do, the diagnostic has the
    same six keys, and its [backend] entry says "Running". *)
Theorem test_database_keys
    (import_db : Exception + option Db) (url : option string)
    (response : Document) :
  test_database import_db url = inr response ->
  dom response =
    ({["backend"; "database"; "database_url"; "database_name";
       "connection_status"; "collections"]} : gset string)
  /\ response !! "backend" = Some (VStr "✅ Running").
Proof.
  intros Hret. destruct import_db as [e | [d |]].
  - rewrite test_database_import_failed in Hret. injection Hret as <-.
    split; [| reflexivity].
    rewrite !dom_insert_L, dom_initial_response. set_solver.
  - destruct (list_collection_names d) as [e | names] eqn:Hlist.
    + rewrite (test_database_listing_failed _ _ _ Hlist) in Hret.
      injection Hret as <-. split; [| reflexivity].
      rewrite !dom_insert_L, dom_initial_response. set_solver.
    + rewrite (test_database_listed _ _ _ Hlist) in Hret.
      injection Hret as <-. split; [| reflexivity].
      rewrite !dom_insert_L, dom_initial_response. set_solver.
  - rewrite test_database_not_initialized in Hret. injection Hret as <-.
    split; [| reflexivity].
    rewrite !dom_insert_L, dom_initial_response. set_solver.
Qed.

(** X14. When the store handle exists, the diagnostic says the URL is set
    exactly when [DATABASE_URL] is a text that is not empty (an empty one
    counts as not set), and shows the name of the handle, or "Connected"
    for a handle that has none. *)
Theorem test_database_url_and_name
    (d : Db) (url : option string) (response : Document) :
  test_database (inr (Some d)) url = inr response ->
  (response !! "database_url" = Some (VStr "✅ Set")
   <-> exists s, url = Some s /\ s <> "")
  /\ (response !! "database_url" = Some (VStr "❌ Not Set")
      <-> url = None \/ url = Some "")
  /\ (forall n, db_name d = Some n ->
        response !! "database_name" = Some (VStr n))
  /\ (db_name d = None ->
      response !! "database_name" = Some (VStr "✅ Connected")).
Proof.
  intros Hret.
  assert (response !! "database_url" =
            Some (VStr (if str_truthy url then "✅ Set" else "❌ Not Set"))
          /\ response !! "database_name" =
               Some (VStr (match db_name d with
                           | Some n => n
                           | None => "✅ Connected"
                           end))) as [Hurl Hname].
  { destruct (list_collection_names d) as [e | names] eqn:Hlist.
    - rewrite (test_database_listing_failed _ _ _ Hlist) in Hret.
      injection Hret as <-. split; reflexivity.
    - rewrite (test_database_listed _ _ _ Hlist) in Hret.
      injection Hret as <-. split; reflexivity. }
  rewrite Hurl, Hname. repeat split.
  - destruct url as [[|c s] |]; simpl; try discriminate. eauto.
  - intros (s & -> & Hs). by destruct s.
  - destruct url as [[|c s] |]; simpl; try discriminate; auto.
  - intros [-> | ->]; reflexivity.
  - by intros n ->.
  - by intros ->.
Qed.

Lemma slice_to_short (n : nat) (s : string) :
  (String.length s <= n)%nat -> slice_to n s = s.
Proof.
  unfold slice_to. revert s.
  induction n as [|n IH]; intros [|c s] Hlen; simpl in *;
    try reflexivity; try lia.
  f_equal. apply IH. lia.
Qed.

(** X15. An exception whose text has 50 characters or fewer is shown
    whole in the diagnostic, after its label. *)
Theorem test_database_shows_short_message_whole
    (e : Exception) (url : option string) :
  (String.length (message e) <= 50)%nat ->
  (exists response,
     test_database (inl e) url = inr response
     /\ response !! "database" = Some (VStr ("❌ Error: " ++ message e)))
  /\ (forall d, list_collection_names d = inl e ->
        exists response,
          test_database (inr (Some d)) url = inr response
          /\ response !! "database" =
               Some (VStr ("⚠️  Connected but Error: " ++ message e))).
Proof.
  intros Hlen. split.
  - eexists. split; [apply test_database_import_failed |].
    by rewrite (slice_to_short _ _ Hlen), lookup_insert_eq.
  - intros d Hlist. eexists.
    split; [by apply test_database_listing_failed |].
    by rewrite (slice_to_short _ _ Hlen), lookup_insert_eq.
Qed.

(** The status of the answer each route builds, before it is encoded. *)
Lemma app_status_by_route (req : Request) (db : option Db) :
  let s := status (fst (app req db)) in
  match req with
  | GET_root | GET_api_hello | GET_api_disclaimer | GET_test _ _ => s = 200
  | GET_api_products => s = 200 \/ s = 500
  | GET_api_products_id _ => s = 200 \/ s = 400 \/ s = 404 \/ s = 500
  | POST_api_products _ => s = 201 \/ s = 422 \/ s = 500
  | POST_api_orders _ => s = 201 \/ s = 400 \/ s = 422 \/ s = 500
  end.
Proof.
  destruct req as [ | | | | product_id | product | order | import_db url];
    simpl; try reflexivity.
  - rewrite app_valid_body by reflexivity. simpl.
    destruct db as [d |]; [| by left].
    rewrite list_products_configured. simpl.
    destruct (get_documents d "peptideproduct"); auto.
  - rewrite app_valid_body by reflexivity. simpl.
    destruct db as [d |]; [| auto].
    rewrite get_product_configured. simpl.
    destruct (ObjectId_new product_id) as [e | oid]; [auto |].
    destruct (find_one d "peptideproduct" oid) as [e | [doc |]]; auto.
    destruct (dict_truthy doc); auto.
  - destruct (PeptideProduct_errors product) as [|f loc] eqn:Herr.
    + rewrite app_valid_body by exact Herr. simpl.
      destruct db as [d |]; [| auto].
      rewrite create_product_configured. simpl.
      destruct (fst (create_document d "peptideproduct" (model_dump product)));
        auto.
    + rewrite app_invalid_body by (simpl; rewrite Herr; discriminate). auto.
  - destruct (Order_errors order) as [|f loc] eqn:Herr.
    + rewrite app_valid_body by exact Herr. simpl.
      destruct (research_use_only_ack order) eqn:Hruo;
        [| rewrite create_order_refused by auto; auto].
      destruct (age_over_21_ack order) eqn:Hage;
        [| rewrite create_order_refused by auto; auto].
      destruct db as [d |].
      * rewrite create_order_configured by assumption. simpl.
        destruct (fst (create_document d "order" (model_dump order))); auto.
      * unfold create_order. rewrite Hruo, Hage. auto.
    + rewrite app_invalid_body by (simpl; rewrite Herr; discriminate). auto.
  - destruct (test_database_returns import_db url) as [r Hr].
    by rewrite (app_test_database _ _ _ _ Hr).
Qed.

(** X16. The statuses a route can answer: the three fixed routes always
    200; the diagnostic 200, or 500 when its object cannot be encoded; the
    product list 200 or 500; a lookup 200, 400, 404 or 500; a product
    creation 201, 422 or 500; an order 201, 400, 422 or 500. *)
Theorem status_by_route (req : Request) (db : option Db) :
  let s := status (fst (serve req db)) in
  match req with
  | GET_root | GET_api_hello | GET_api_disclaimer => s = 200
  | GET_test _ _ => s = 200 \/ s = 500
  | GET_api_products => s = 200 \/ s = 500
  | GET_api_products_id _ => s = 200 \/ s = 400 \/ s = 404 \/ s = 500
  | POST_api_products _ => s = 201 \/ s = 422 \/ s = 500
  | POST_api_orders _ => s = 201 \/ s = 400 \/ s = 422 \/ s = 500
  end.
Proof.
  pose proof (app_status_by_route req db) as Happ. simpl in Happ. simpl.
  destruct req as [ | | | | product_id | product | order | import_db url];
    [ by rewrite serve_encodable by reflexivity
    | by rewrite serve_encodable by reflexivity
    | by rewrite serve_encodable by reflexivity
    | .. ];
    rewrite serve_if; simpl fst;
    (match goal with
     | |- context [if ?c then _ else _] => destruct c
     end; [try exact Happ | cbn [status]; auto 6]).
  left. exact Happ.
Qed.




Lemma ge_zero_iff_not_negative (x : spec_float) :
  x <> S754_nan -> SFleb float_zero x = negb (SFltb x float_zero).
Proof.
  unfold SFltb, SFleb, float_zero.
  destruct x as [s | s | | s m e]; try destruct s; simpl; congruence.
Qed.

Lemma encodable_price_error (x : spec_float) :
  encodable
    (VDict {["detail" :=
               VList [error_detail {| loc := "price"; input := VFloat x |}]]})
  = float_finite x.
Proof. destruct x; reflexivity. Qed.

Lemma serve_product_rejected (product : PeptideProduct) (db : option Db) :
  SFleb float_zero (price product) = false ->
  serve (POST_api_products product) db =
    (if float_finite (price product)
     then {| status := 422;
             body :=
               VDict {["detail" :=
                         VList [error_detail
                                  {| loc := "price";
                                     input := VFloat (price product) |}]]} |}
     else {| status := 500; body := VStr "Internal Server Error" |}, db).
Proof.
  intros Hbad.
  assert (app (POST_api_products product) db =
            ({| status := 422;
                body :=
                  VDict {["detail" :=
                            VList [error_detail
                                     {| loc := "price";
                                        input := VFloat (price product) |}]]} |},
             db)) as Happ.
  { unfold app. cbn [body_errors]. unfold PeptideProduct_errors.
    by rewrite Hbad. }
  rewrite serve_if, Happ. cbn [fst snd body].
  by rewrite encodable_price_error.
Qed.

Lemma serve_create_product_configured (product : PeptideProduct) (d : Db) :
  PeptideProduct_errors product = [] ->
  serve (POST_api_products product) (Some d) =
    (match fst (create_document d "peptideproduct" (model_dump product)) with
     | inl _ => {| status := 500; body := VStr "Internal Server Error" |}
     | inr inserted_id =>
         if text_encodable inserted_id
         then {| status := 201; body := VDict {["id" := VStr inserted_id]} |}
         else {| status := 500; body := VStr "Internal Server Error" |}
     end,
     Some (snd (create_document d "peptideproduct" (model_dump product)))).
Proof.
  intros Hok. rewrite serve_if, app_valid_body by exact Hok.
  cbn [endpoint]. rewrite create_product_configured. cbn [fst snd].
  destruct (fst (create_document d "peptideproduct" (model_dump product)))
    as [e | inserted_id]; [reflexivity |].
  cbn [respond body]. by rewrite encodable_singleton.
Qed.

(** X18. For a price that is a number (not NaN), a product creation is
    answered 422 exactly when the price is negative and finite.  It is
    answered 500 exactly when the price is minus infinity, or the price is
    not negative and no store is configured, the store raises, or the
    identifier it returns cannot be encoded; and 201 exactly when the
    price is not negative and the store returns an identifier that can be
    encoded.  A price of zero, of either sign, passes the schema. *)
Theorem create_product_status (product : PeptideProduct) (db : option Db) :
  price product <> S754_nan ->
  let s := status (fst (serve (POST_api_products product) db)) in
  let negative := SFltb (price product) float_zero in
  (s = 422 <-> negative = true /\ price product <> S754_infinity true)
  /\ (s = 500 <->
      price product = S754_infinity true
      \/ negative = false
         /\ (db = None
             \/ exists d,
                  db = Some d
                  /\ ((exists e,
                         fst (create_document d "peptideproduct"
                                (model_dump product)) = inl e)
                      \/ exists inserted_id,
                           fst (create_document d "peptideproduct"
                                  (model_dump product)) = inr inserted_id
                           /\ text_encodable inserted_id = false)))
  /\ (s = 201 <->
      negative = false
      /\ exists d inserted_id,
           db = Some d
           /\ fst (create_document d "peptideproduct"
                     (model_dump product)) = inr inserted_id
           /\ text_encodable inserted_id = true)
  /\ (forall sign, price product = S754_zero sign -> s <> 422).
Proof.
  intros Hnum. cbv zeta.
  assert (SFltb (S754_infinity true) float_zero = true) as Hinf
    by reflexivity.
  destruct (SFltb (price product) float_zero) eqn:Hneg.
  - rewrite serve_product_rejected
      by (by rewrite (ge_zero_iff_not_negative _ Hnum), Hneg).
    cbn [fst].
    destruct (price product) as [sg | [] | | [] m e] eqn:Hprice;
      try discriminate Hneg; try congruence; cbn [float_finite status].
    + split; [split; [discriminate | by intros [_ ?]] |].
      split; [split; [auto | reflexivity] |].
      split; [| discriminate].
      split; [discriminate | intros [? _]; discriminate].
    + split; [split; [done | reflexivity] |].
      split.
      { split; [discriminate |].
        intros [? | [? _]]; discriminate. }
      split; [| intros sign ?; discriminate].
      split; [discriminate | intros [? _]; discriminate].
  - assert (PeptideProduct_errors product = []) as Hok.
    { unfold PeptideProduct_errors.
      by rewrite (ge_zero_iff_not_negative _ Hnum), Hneg. }
    assert (price product <> S754_infinity true) as Hfinite
      by (intros Hp; rewrite Hp in Hneg; discriminate).
    destruct db as [d |].
    + rewrite (serve_create_product_configured _ _ Hok). cbn [fst].
      destruct (fst (create_document d "peptideproduct" (model_dump product)))
        as [e | inserted_id] eqn:Hcreate.
      * cbn [status].
        split; [split; [discriminate | intros [? _]; discriminate] |].
        split; [split; [intros _; right; eauto 8 | reflexivity] |].
        split; [| discriminate].
        split; [discriminate |].
        intros [_ (d' & i & [= <-] & Hi & _)]. congruence.
      * destruct (text_encodable inserted_id) eqn:Henc; cbn [status].
        -- split; [split; [discriminate | intros [? _]; discriminate] |].
           split.
           { split; [discriminate |].
             intros [? | [_ [? | (d' & [= <-]
                                  & [(e & He) | (i & Hi & Hbad)])]]];
               congruence. }
           split; [split; [eauto 8 | reflexivity] | discriminate].
        -- split; [split; [discriminate | intros [? _]; discriminate] |].
           split; [split; [intros _; right; eauto 10 | reflexivity] |].
           split; [| discriminate].
           split; [discriminate |].
           intros [_ (d' & i & [= <-] & Hi & Hgood)]. congruence.
    + rewrite serve_encodable
        by (rewrite app_valid_body by exact Hok; reflexivity).
      rewrite app_valid_body by exact Hok. cbn [endpoint fst].
      change (status (respond (success_status (POST_api_products product))
                        (fst (create_product product None)))) with 500.
      split; [split; [discriminate | intros [? _]; discriminate] |].
      split; [split; [auto | reflexivity] |].
      split; [| discriminate].
      split; [discriminate |].
      intros [_ (d & i & Hd & _)]. discriminate.
Qed.

(** X19. An order is answered 400 exactly when it passes the schema and
    one of the two acknowledgements is false. *)
Theorem create_order_400_iff (order : Order) (db : option Db) :
  status (fst (app (POST_api_orders order) db)) = 400
  <-> Order_errors order = []
      /\ (research_use_only_ack order = false
          \/ age_over_21_ack order = false).
Proof.
  destruct (Order_errors order) as [|f loc] eqn:Herr.
  - rewrite app_valid_body by exact Herr. simpl.
    destruct (research_use_only_ack order) eqn:Hruo;
      [| rewrite create_order_refused by auto; simpl; tauto].
    destruct (age_over_21_ack order) eqn:Hage;
      [| rewrite create_order_refused by auto; simpl; tauto].
    split; [| intros [_ [H | H]]; discriminate].
    destruct db as [d |].
    + rewrite create_order_configured by assumption. simpl.
      destruct (fst (create_document d "order" (model_dump order)));
        discriminate.
    + unfold create_order. rewrite Hruo, Hage. discriminate.
  - rewrite app_invalid_body by (simpl; rewrite Herr; discriminate).
    split; [discriminate | intros [? _]; discriminate].
Qed.

(** X20. A lookup is answered 400 exactly when a store is configured and
    [ObjectId] refuses the identifier, and 404 exactly when no store is
    configured or the identifier is accepted and the store finds nothing
    or a document with no key. *)
Theorem get_product_400_404_iff (product_id : string) (db : option Db) :
  (status (fst (app (GET_api_products_id product_id) db)) = 400
   <-> exists d e, db = Some d /\ ObjectId_new product_id = inl e)
  /\ (status (fst (app (GET_api_products_id product_id) db)) = 404
      <-> db = None
          \/ exists d oid found,
               db = Some d
               /\ ObjectId_new product_id = inr oid
               /\ find_one d "peptideproduct" oid = inr found
               /\ doc_truthy found = false).
Proof.
  rewrite app_valid_body by reflexivity. simpl.
  destruct db as [d |].
  2:{ split; split; try discriminate; auto.
      intros (d & e & Hd & _). discriminate. }
  rewrite get_product_configured. simpl.
  destruct (ObjectId_new product_id) as [e | oid] eqn:Hoid; simpl.
  { split; split; try discriminate; eauto.
    intros [Hd | (d' & oid & found & _ & Hoid' & _)]; discriminate. }
  destruct (find_one d "peptideproduct" oid) as [e | [doc |]] eqn:Hfind; simpl.
  - split; split; try discriminate.
    + intros (d' & e' & _ & He'). discriminate.
    + intros [Hd | (d' & oid' & found & [= <-] & [= <-] & Hf & _)];
        congruence.
  - destruct (dict_truthy doc) eqn:Htruthy; simpl.
    + split; split; try discriminate.
      * intros (d' & e' & _ & He'). discriminate.
      * intros [Hd | (d' & oid' & found & [= <-] & [= <-] & Hf & Hfalsy)];
          [discriminate |].
        rewrite Hfind in Hf. injection Hf as <-. simpl in Hfalsy. congruence.
    + split; split; try discriminate.
      * intros (d' & e' & _ & He'). discriminate.
      * intros _. right. exists d, oid, (Some doc). auto.
      * reflexivity.
  - split; split; try discriminate.
    + intros (d' & e' & _ & He'). discriminate.
    + intros _. right. exists d, oid, None. auto.
    + reflexivity.
Qed.

End Behaviour.

(** ** The further behaviour on concrete requests *)

Lemma to_str_id_moves_id_witness :
  to_str_id (C := Double.fake) Double.stored_product !! "_id" = None
  /\ to_str_id (C := Double.fake) Double.stored_product !! "id" =
       Some (VStr "507f1f77bcf86cd799439011")
  /\ to_str_id (C := Double.fake) Double.stored_product !! "name" =
       Some (VStr "BPC-157").
Proof.
  destruct (to_str_id_moves_id (C := Double.fake) Double.stored_product
              (VObjectId {| oid_hex := "507f1f77bcf86cd799439011" |})
              eq_refl eq_refl) as (Hgone & Hid & Hrest).
  split; [exact Hgone |]. split; [exact Hid |].
  rewrite (Hrest "name") by discriminate. reflexivity.
Defined.



Lemma store_changes_only_on_accepted_writes_witness :
  snd (app (C := Double.fake) GET_api_products (Some Double.stocked_db)) =
    Some Double.stocked_db
  /\ snd (app (C := Double.fake)
            (POST_api_orders (order_with_zero_quantity true true))
            (Some Double.empty_db)) = Some Double.empty_db
  /\ snd (app (C := Double.fake)
            (POST_api_products (sample_product price_49_5)) None) = None.
Proof.
  split; [| split].
  - apply (store_changes_only_on_accepted_writes (C := Double.fake)).
    left. reflexivity.
  - apply (store_changes_only_on_accepted_writes (C := Double.fake)).
    right. left. discriminate.
  - apply (store_changes_only_on_accepted_writes (C := Double.fake)).
    right. right. reflexivity.
Defined.

Lemma create_product_stores_once_witness :
  exists d',
    app (C := Double.fake) (POST_api_products (sample_product price_49_5))
      (Some Double.empty_db) =
      ({| status := 201;
          body := VDict {["id" := VStr "65f0c0ffee0123456789abcd"]} |},
       Some d')
    /\ Double.written d' =
         [("peptideproduct", model_dump (sample_product price_49_5))].
Proof.
  eexists. split.
  - apply (create_product_stores_once (C := Double.fake)
             (sample_product price_49_5) Double.empty_db).
    reflexivity.
  - reflexivity.
Defined.

Lemma create_order_accepted_only_with_acknowledgements_witness :
  status (fst (app (C := Double.fake) (POST_api_orders (sample_order true true))
                 (Some Double.empty_db))) = 201
  /\ field "persisted"
       (body (fst (app (C := Double.fake)
                     (POST_api_orders (sample_order true true))
                     (Some Double.empty_db)))) = Some (VBool true)
  /\ field "id"
       (body (fst (app (C := Double.fake)
                     (POST_api_orders (sample_order true true))
                     (Some Double.empty_db)))) =
       Some (VStr "65f0c0ffee0123456789abcd").
Proof.
  split; [reflexivity |].
  destruct (create_order_accepted_only_with_acknowledgements
              (C := Double.fake) (sample_order true true)
              (Some Double.empty_db) _ _ (surjective_pairing _) eq_refl)
    as (_ & _ & _ & _ & inserted_id & Hcreate & _ & Hpersisted & Hid).
  split; [exact Hpersisted |].
  rewrite Hid. injection Hcreate as <-. reflexivity.
Defined.

Lemma create_order_422_iff_bad_quantity_witness :
  status (fst (app (C := Double.fake)
                 (POST_api_orders (order_with_zero_quantity false false))
                 (Some Double.empty_db))) = 422
  /\ snd (app (C := Double.fake)
            (POST_api_orders (order_with_zero_quantity false false))
            (Some Double.empty_db)) = Some Double.empty_db.
Proof.
  assert (Exists (fun item => quantity item < 1)
            (items (order_with_zero_quantity false false))) as Hbad.
  { right. left. reflexivity. }
  destruct (create_order_422_iff_bad_quantity (C := Double.fake)
              (order_with_zero_quantity false false) (Some Double.empty_db))
    as (H422 & Hstore & _).
  split; [exact (proj2 H422 Hbad) | exact (Hstore Hbad)].
Defined.

Lemma test_database_reports_ten_collections_witness :
  exists response,
    test_database (C := Double.fake) (inr (Some Double.stocked_db)) None =
      inr response
    /\ response !! "collections" =
         Some (VList (map VStr ["c01"; "c02"; "c03"; "c04"; "c05";
                                "c06"; "c07"; "c08"; "c09"; "c10"])).
Proof.
  destruct (test_database_reports_ten_collections (C := Double.fake)
              Double.stocked_db
              ["c01"; "c02"; "c03"; "c04"; "c05"; "c06";
               "c07"; "c08"; "c09"; "c10"; "c11"; "c12"] None eq_refl)
    as (response & Hret & _ & _ & Hcollections & _).
  exists response. split; [exact Hret | exact Hcollections].
Defined.

Lemma test_database_without_handle_keeps_defaults_witness :
  exists response,
    test_database (C := Double.fake) (inr None) None = inr response
    /\ response !! "collections" = Some (VList [])
    /\ response !! "database" =
         Some (VStr "⚠️  Available but not initialized").
Proof.
  eexists. split; [reflexivity |].
  destruct (test_database_without_handle_keeps_defaults (C := Double.fake)
              (inr None) None _ ltac:(discriminate) eq_refl)
    as (_ & _ & Hcollections & _ & _ & Hdatabase).
  split; [exact Hcollections | exact (Hdatabase eq_refl)].
Defined.

Lemma test_database_listing_failure_keeps_progress_witness :
  exists response,
    test_database (C := Double.fake) (inr (Some Double.unreachable_db))
      (Some "mongodb://localhost") = inr response
    /\ response !! "connection_status" = Some (VStr "Connected")
    /\ response !! "database_name" = Some (VStr "peptides")
    /\ response !! "database_url" = Some (VStr "✅ Set").
Proof.
  destruct (test_database_listing_failure_keeps_progress (C := Double.fake)
              Double.unreachable_db _ (Some "mongodb://localhost") eq_refl)
    as (response & Hret & Hstatus & _ & Hname & Hurl).
  exists response. split; [exact Hret |]. split; [exact Hstatus |].
  split; [exact Hname | exact Hurl].
Defined.

Lemma test_database_keys_witness :
  exists response,
    test_database (C := Double.fake) (inr (Some Double.stocked_db)) None =
      inr response
    /\ dom response =
         ({["backend"; "database"; "database_url"; "database_name";
            "connection_status"; "collections"]} : gset string).
Proof.
  eexists. split; [reflexivity |].
  apply (test_database_keys (C := Double.fake)
           (inr (Some Double.stocked_db)) None).
  reflexivity.
Defined.

Lemma test_database_url_and_name_witness :
  exists response,
    test_database (C := Double.fake) (inr (Some Double.stocked_db))
      (Some "") = inr response
    /\ response !! "database_url" = Some (VStr "❌ Not Set")
    /\ response !! "database_name" = Some (VStr "✅ Connected").
Proof.
  eexists. split; [reflexivity |].
  destruct (test_database_url_and_name (C := Double.fake)
              Double.stocked_db (Some "") _ eq_refl)
    as (_ & Hunset & _ & Hname).
  split; [apply Hunset; by right | exact (Hname eq_refl)].
Defined.

Lemma test_database_shows_short_message_whole_witness :
  exists response,
    test_database (C := Double.fake) (inr (Some Double.broken_db)) None =
      inr response
    /\ response !! "database" =
         Some (VStr "⚠️  Connected but Error: connection closed").
Proof.
  assert (String.length (message {| message := "connection closed" |})
          <= 50)%nat as Hshort by (simpl; lia).
  destruct (test_database_shows_short_message_whole (C := Double.fake)
              {| message := "connection closed" |} None Hshort)
    as (_ & Hlisting).
  destruct (Hlisting Double.broken_db eq_refl) as (response & Hret & Hshown).
  exists response. split; [exact Hret | exact Hshown].
Defined.


Lemma create_product_status_witness :
  price (sample_product price_49_5) <> S754_nan
  /\ status (fst (serve (C := Double.fake)
                    (POST_api_products (sample_product price_49_5))
                    (Some Double.empty_db))) = 201
  /\ status (fst (serve (C := Double.fake)
                    (POST_api_products (sample_product minus_infinity))
                    (Some Double.empty_db))) = 500.
Proof.
  assert (price (sample_product price_49_5) <> S754_nan) as Hnum
    by discriminate.
  assert (price (sample_product minus_infinity) <> S754_nan) as Hnum'
    by discriminate.
  split; [exact Hnum |]. split.
  - destruct (create_product_status (C := Double.fake)
                (sample_product price_49_5) (Some Double.empty_db) Hnum)
      as (_ & _ & H201 & _).
    apply H201. split; [reflexivity |].
    exists Double.empty_db, "65f0c0ffee0123456789abcd". by repeat split.
  - destruct (create_product_status (C := Double.fake)
                (sample_product minus_infinity) (Some Double.empty_db) Hnum')
      as (_ & H500 & _).
    apply H500. by left.
Defined.
